(** * Pulse simulation of a backend model: the notebook as a program

    The repository is one Jupyter notebook,
    [tutorials/circuits_advanced/12_pulse_simulator_backend_model.ipynb].
    Its code cells are a straight-line Python script that calls into
    Qiskit (Terra, Aer, Ignis) and NumPy.  This development embeds the
    code cells as computations in a state-and-exception monad over

    - a store of Python objects (the objects the script mutates are the
      ones handed out by the library), and
    - a log of the operations the script performs, in execution order.

    The libraries are not part of the repository: they are a parameter
    [lib] of every definition, an arbitrary function from a call and the
    current store to an outcome and a new store.  What a statement needs
    of them is a hypothesis of that statement ([backend_contract],
    [linspace_contract]); [Mock.lib] is a library that meets both. *)

From stdpp Require Import gmap strings list fin_maps.
From Stdlib Require Import QArith.

Set Warnings "-register-all".
Local Open Scope Z_scope.
Local Open Scope string_scope.

(** ** Python values *)

Abbreviation loc := positive.

(** Floats are kept as the exact rational their literal denotes; no
    rounding to binary64 is modelled, and arithmetic on them is left to
    the runtime parameter. *)
Inductive value : Type :=
| VNone
| VInt (z : Z)
| VFloat (q : Q)
| VStr (s : string)
| VList (vs : list value)
| VTuple (vs : list value)
| VDict (kvs : list (string * value))
| VRef (l : loc)                 (* a mutable object in the store *)
| VLib (qualname : string).      (* a module, class or function of a library *)

(** Exceptions are identified by their class name. *)
Definition exn := string.

Inductive outcome (A : Type) : Type :=
| Ret (a : A)
| Raise (e : exn).
Arguments Ret {A} a.
Arguments Raise {A} e.

(** ** The object store *)

Inductive kind := KObject | KDict.

(** An object is its attribute dictionary; a [dict] is its items.  Only
    string keys occur in the notebook. *)
Record obj := Obj { okind : kind; slots : gmap string value }.

Abbreviation store := (gmap loc obj).

Definition slot (h : store) (l : loc) (f : string) : option value :=
  match h !! l with
  | Some o => slots o !! f
  | None => None
  end.

Definition write_slot (h : store) (l : loc) (f : string) (v : value) : store :=
  match h !! l with
  | Some o => <[l := Obj (okind o) (<[f := v]> (slots o))]> h
  | None => h
  end.

(** ** Operations delegated to the library and the Python runtime *)

Inductive binop := Mul | Mod.

Inductive callee : Type :=
| CImport (module : string)             (* import module *)
| CCall (f : value)                     (* f(args) *)
| CMethod (self : value) (m : string)   (* self.m(args) *)
| CGetAttr (self : value) (a : string)  (* class-level attribute lookup *)
| CBinOp (op : binop)                   (* a * b, a % b *)
| CBuiltin (name : string)              (* print *)
| CMagic (name : string).               (* IPython line magic *)

Definition kwargs := list (string * value).

Definition library :=
  callee → list value → kwargs → store → outcome value * store.

(** ** The log *)

Inductive event : Type :=
| ECell (execution_count : nat)
| ECall (pre : store) (c : callee) (args : list value) (kw : kwargs)
        (r : outcome value)
| EGetAttr (o : value) (a : string) (r : outcome value)
| ESetAttr (o : value) (a : string) (v : value) (r : outcome unit)
| ESetItem (o : value) (k : string) (v : value) (r : outcome unit)
| EUnpack (v : value) (r : outcome (value * value)).

Record state := State { heap : store; log : list event }.

(** The log is kept newest first; [trace] reads it in execution order. *)
Definition trace (s : state) : list event := rev (log s).

Definition init (h : store) : state := State h [].

(** ** The monad *)

Definition M (A : Type) : Type := state → outcome A * state.

Definition ret {A} (a : A) : M A := λ s, (Ret a, s).

Definition bind {A B} (m : M A) (k : A → M B) : M B :=
  λ s, match m s with
       | (Ret a, s') => k a s'
       | (Raise e, s') => (Raise e, s')
       end.

#[global] Instance M_ret : MRet M := @ret.
#[global] Instance M_bind : MBind M := λ A B k m, bind m k.

(** One primitive step: compute on the store, log what happened. *)
Definition prim {A} (f : store → outcome A * store)
    (ev : store → outcome A → event) : M A :=
  λ s, let '(r, h') := f (heap s) in
       (r, State h' (ev (heap s) r :: log s)).

Definition mark (n : nat) : M unit :=
  λ s, (Ret tt, State (heap s) (ECell n :: log s)).

Section Semantics.
Variable lib : library.

Definition call (c : callee) (args : list value) (kw : kwargs) : M value :=
  prim (lib c args kw) (λ h r, ECall h c args kw r).

(** [import m] / [from m import a, b]: run the import, then the names
    denote the library's entities. *)
Definition import (module : string) : M value :=
  _ ← call (CImport module) [] []; mret (VLib module).

Definition import_from (module name : string) : value :=
  VLib (module +:+ "." +:+ name).

(** [o.a]: the instance dictionary first, then the class (properties,
    [__getattr__], module attributes), which is library code. *)
Definition load_attr (o : value) (a : string) (h : store)
    : outcome value * store :=
  match o with
  | VRef l =>
      match slot h l a, okind <$> h !! l with
      | Some v, Some KObject => (Ret v, h)
      | _, _ => lib (CGetAttr o a) [] [] h
      end
  | _ => lib (CGetAttr o a) [] [] h
  end.

Definition getattr (o : value) (a : string) : M value :=
  prim (load_attr o a) (λ _ r, EGetAttr o a r).

(** [o.a = v] *)
Definition store_attr (o : value) (a : string) (v : value) (h : store)
    : outcome unit * store :=
  match o with
  | VRef l =>
      match okind <$> h !! l with
      | Some KObject => (Ret tt, write_slot h l a v)
      | _ => (Raise "AttributeError", h)
      end
  | _ => (Raise "AttributeError", h)
  end.

Definition setattr (o : value) (a : string) (v : value) : M unit :=
  prim (store_attr o a v) (λ _ r, ESetAttr o a v r).

(** [o[k] = v] for a string key [k] *)
Definition store_item (o : value) (k : string) (v : value) (h : store)
    : outcome unit * store :=
  match o with
  | VRef l =>
      match okind <$> h !! l with
      | Some KDict => (Ret tt, write_slot h l k v)
      | _ => (Raise "TypeError", h)
      end
  | _ => (Raise "TypeError", h)
  end.

Definition setitem (o : value) (k : string) (v : value) : M unit :=
  prim (store_item o k v) (λ _ r, ESetItem o k v r).

(** [a, b = v] *)
Definition unpack_pair (v : value) (h : store)
    : outcome (value * value) * store :=
  match v with
  | VTuple [a; b] | VList [a; b] => (Ret (a, b), h)
  | VTuple _ | VList _ => (Raise "ValueError", h)
  | _ => (Raise "TypeError", h)
  end.

Definition unpack2 (v : value) : M (value * value) :=
  prim (unpack_pair v) (λ _ r, EUnpack v r).

Definition binary (op : binop) (a b : value) : M value :=
  call (CBinOp op) [a; b] [].

(** ** The code cells, by execution count *)

(** In [1] *)
Definition cell_1 : M value :=
  mark 1;;
  np ← import "numpy";
  mret np.

(** In [2] *)
Definition cell_2 : M (value * value * value * value) :=
  mark 2;;
  _ ← import "qiskit.ignis.characterization.calibrations";
  let rabi_schedules :=
    import_from "qiskit.ignis.characterization.calibrations" "rabi_schedules" in
  let RabiFitter :=
    import_from "qiskit.ignis.characterization.calibrations" "RabiFitter" in
  _ ← import "qiskit.pulse";
  let DriveChannel := import_from "qiskit.pulse" "DriveChannel" in
  _ ← import "qiskit.compiler";
  let assemble := import_from "qiskit.compiler" "assemble" in
  _ ← import "qiskit.qobj.utils";
  mret (rabi_schedules, RabiFitter, DriveChannel, assemble).

(** In [3] *)
Definition cell_3 : M (value * value * value) :=
  mark 3;;
  _ ← import "qiskit.providers.aer";
  let PulseSimulator := import_from "qiskit.providers.aer" "PulseSimulator" in
  _ ← import "qiskit.providers.aer.pulse";
  let PulseSystemModel :=
    import_from "qiskit.providers.aer.pulse" "PulseSystemModel" in
  _ ← import "qiskit.test.mock.backends.armonk.fake_armonk";
  let FakeArmonk :=
    import_from "qiskit.test.mock.backends.armonk.fake_armonk" "FakeArmonk" in
  mret (PulseSimulator, PulseSystemModel, FakeArmonk).

(** In [4] *)
Definition cell_4 (FakeArmonk : value) : M value :=
  mark 4;;
  armonk_backend ← call (CCall FakeArmonk) [] [];
  mret armonk_backend.

Definition freq_est : value := VFloat (4970000000 # 1).
Definition drive_est : value := VFloat (63500000 # 1).
Definition dt_value : value :=
  VFloat (22222222222222221 # 100000000000000000000000000).

(** The three shapes of assignment of In [5].  In an assignment the
    right-hand side is evaluated before the target. *)

(** [backend.defaults().a = v] *)
Definition set_defaults_attr (backend : value) (a : string) (v : value)
    : M unit :=
  d ← call (CMethod backend "defaults") [] [];
  setattr d a v.

(** [backend.configuration().hamiltonian[k] = v] *)
Definition set_hamiltonian_item (backend : value) (k : string) (v : value)
    : M unit :=
  c ← call (CMethod backend "configuration") [] [];
  h ← getattr c "hamiltonian";
  setitem h k v.

(** [backend.configuration().a = v] *)
Definition set_configuration_attr (backend : value) (a : string) (v : value)
    : M unit :=
  c ← call (CMethod backend "configuration") [] [];
  setattr c a v.

(** In [5] *)
Definition cell_5 (np armonk_backend : value) : M unit :=
  mark 5;;
  set_defaults_attr armonk_backend "qubit_freq_est" (VList [freq_est]);;
  set_hamiltonian_item armonk_backend "h_str"
    (VList [VStr "wq0*0.5*(I0-Z0)"; VStr "omegad0*X0||D0"]);;
  pi ← getattr np "pi";
  two_pi ← binary Mul (VInt 2) pi;
  wq0 ← binary Mul two_pi freq_est;
  set_hamiltonian_item armonk_backend "vars"
    (VDict [("wq0", wq0); ("omegad0", drive_est)]);;
  set_hamiltonian_item armonk_backend "qub" (VDict [("0", VInt 2)]);;
  set_configuration_attr armonk_backend "dt" dt_value.

(** In [6] *)
Definition cell_6 (PulseSystemModel armonk_backend : value) : M value :=
  mark 6;;
  armonk_model ← call (CMethod PulseSystemModel "from_backend") [armonk_backend] [];
  mret armonk_model.

Definition qubits : value := VList [VInt 0].
Definition num_exps : value := VInt 64.
Definition drive_duration : value := VInt 2048.
Definition drive_sigma : value := VInt 256.

(** In [7].  The name [rabi_schedules] is rebound to the first
    component of the result. *)
Definition cell_7 (np rabi_schedules DriveChannel armonk_backend : value)
    : M (value * value) :=
  mark 7;;
  drive_amps ← call (CMethod np "linspace") [VInt 0; VFloat (1 # 1); num_exps] [];
  d0 ← call (CCall DriveChannel) [VInt 0] [];
  let drive_channels := VList [d0] in
  d ← call (CMethod armonk_backend "defaults") [] [];
  inst_map ← getattr d "instruction_schedule_map";
  c ← call (CMethod armonk_backend "configuration") [] [];
  meas_map ← getattr c "meas_map";
  r ← call (CCall rabi_schedules) []
        [("amp_list", drive_amps);
         ("qubits", qubits);
         ("pulse_width", drive_duration);
         ("pulse_sigma", drive_sigma);
         ("drives", drive_channels);
         ("inst_map", inst_map);
         ("meas_map", meas_map)];
  '(rabi_schedules, xdata) ← unpack2 r;
  mret (rabi_schedules, xdata).

(** In [8] *)
Definition cell_8 (PulseSimulator assemble rabi_schedules : value)
    : M (value * value) :=
  mark 8;;
  backend_sim ← call (CCall PulseSimulator) [] [];
  rabi_qobj ← call (CCall assemble) [rabi_schedules]
                [("backend", backend_sim);
                 ("meas_level", VInt 1);
                 ("meas_return", VStr "avg");
                 ("shots", VInt 512)];
  mret (backend_sim, rabi_qobj).

(** In [9] *)
Definition cell_9 (backend_sim rabi_qobj armonk_model : value) : M value :=
  mark 9;;
  job ← call (CMethod backend_sim "run") [rabi_qobj; armonk_model] [];
  sim_result ← call (CMethod job "result") [] [];
  mret sim_result.

Definition fit_p0 : value :=
  VList [VFloat (15 # 10); VInt 2; VInt 0; VInt 0].

(** In [10] *)
Definition cell_10 (RabiFitter sim_result xdata : value) : M (value * value) :=
  mark 10;;
  rabi_fit ← call (CCall RabiFitter) [sim_result; xdata; qubits]
               [("fit_p0", fit_p0)];
  pi_amp ← call (CMethod rabi_fit "pi_amplitude") [VInt 0] [];
  _ ← call (CMethod rabi_fit "plot") [VInt 0] [];
  msg ← binary Mod (VStr "Pi Amp: %f") pi_amp;
  _ ← call (CBuiltin "print") [msg] [];
  mret (rabi_fit, pi_amp).

(** In [11] *)
Definition cell_11 : M unit :=
  mark 11;;
  _ ← import "qiskit.tools.jupyter";
  _ ← call (CMagic "qiskit_version_table") [] [];
  _ ← call (CMagic "qiskit_copyright") [] [];
  mret tt.

(** The variables the kernel holds when the notebook has run. *)
Record namespace := Namespace {
  ns_armonk_backend : value;
  ns_armonk_model : value;
  ns_rabi_schedules : value;
  ns_xdata : value;
  ns_backend_sim : value;
  ns_rabi_qobj : value;
  ns_sim_result : value;
  ns_rabi_fit : value;
  ns_pi_amp : value
}.

(** Run All: the code cells top to bottom, in one kernel. *)
Definition notebook : M namespace :=
  np ← cell_1;
  '(rabi_schedules, RabiFitter, DriveChannel, assemble) ← cell_2;
  '(PulseSimulator, PulseSystemModel, FakeArmonk) ← cell_3;
  armonk_backend ← cell_4 FakeArmonk;
  cell_5 np armonk_backend;;
  armonk_model ← cell_6 PulseSystemModel armonk_backend;
  '(rabi_schedules, xdata) ← cell_7 np rabi_schedules DriveChannel armonk_backend;
  '(backend_sim, rabi_qobj) ← cell_8 PulseSimulator assemble rabi_schedules;
  sim_result ← cell_9 backend_sim rabi_qobj armonk_model;
  '(rabi_fit, pi_amp) ← cell_10 RabiFitter sim_result xdata;
  cell_11;;
  mret (Namespace armonk_backend armonk_model rabi_schedules xdata
          backend_sim rabi_qobj sim_result rabi_fit pi_amp).

End Semantics.

(** [returns lib h0 ns]: started on the store [h0], the notebook runs to
    the end and leaves the variables [ns]. *)
Definition returns (lib : library) (h0 : store) (ns : namespace) : Prop :=
  (notebook lib (init h0)).1 = Ret ns.

(** ** The seven steps of the flow *)

Inductive step : Type :=
| Instantiate | Override | BuildModel | GenSchedules | Assemble | Run | Fit.

Definition q_FakeArmonk : string :=
  "qiskit.test.mock.backends.armonk.fake_armonk.FakeArmonk".
Definition q_PulseSystemModel : string :=
  "qiskit.providers.aer.pulse.PulseSystemModel".
Definition q_PulseSimulator : string :=
  "qiskit.providers.aer.PulseSimulator".
Definition q_rabi_schedules : string :=
  "qiskit.ignis.characterization.calibrations.rabi_schedules".
Definition q_RabiFitter : string :=
  "qiskit.ignis.characterization.calibrations.RabiFitter".
Definition q_DriveChannel : string := "qiskit.pulse.DriveChannel".
Definition q_assemble : string := "qiskit.compiler.assemble".

(** The step an operation of the log belongs to, if it is one of the
    seven: a call is told by the function or method called, and every
    attribute or item assignment is an override. *)
Definition step_of (e : event) : option step :=
  match e with
  | ECall _ (CCall (VLib q)) _ _ _ =>
      if String.eqb q q_FakeArmonk then Some Instantiate
      else if String.eqb q q_rabi_schedules then Some GenSchedules
      else if String.eqb q q_assemble then Some Assemble
      else if String.eqb q q_RabiFitter then Some Fit
      else None
  | ECall _ (CMethod _ m) _ _ _ =>
      if String.eqb m "from_backend" then Some BuildModel
      else if String.eqb m "run" then Some Run
      else if String.eqb m "plot" then Some Fit
      else None
  | ESetAttr _ _ _ _ | ESetItem _ _ _ _ => Some Override
  | _ => None
  end.

(** The operations that are steps, in order. *)
Fixpoint principal (t : list event) : list event :=
  match t with
  | [] => []
  | e :: t' =>
      match step_of e with
      | Some _ => e :: principal t'
      | None => principal t'
      end
  end.

(** The steps taken in each cell: the trace is cut at the cell markers. *)
Fixpoint split_cells (t : list event) : list step * list (nat * list step) :=
  match t with
  | [] => ([], [])
  | ECell n :: t' =>
      let '(cur, rest) := split_cells t' in ([], (n, cur) :: rest)
  | e :: t' =>
      let '(cur, rest) := split_cells t' in
      (match step_of e with Some st => st :: cur | None => cur end, rest)
  end.

Definition steps_by_cell (t : list event) : list (nat * list step) :=
  (split_cells t).2.

#[global] Instance step_eq_dec : EqDecision step.
Proof. solve_decision. Defined.

(** A step made of several operations counts once. *)
Fixpoint collapse (l : list step) : list step :=
  match l with
  | x :: (y :: _) as l' =>
      if decide (x = y) then collapse l' else x :: collapse l'
  | _ => l
  end.

(** The steps of a trace, in order. *)
Definition steps (t : list event) : list step := collapse (omap step_of t).

(** The operations of the cell with execution count [n]. *)
Fixpoint skip_to (n : nat) (t : list event) : list event :=
  match t with
  | [] => []
  | ECell m :: t' => if Nat.eqb m n then t' else skip_to n t'
  | _ :: t' => skip_to n t'
  end.

Fixpoint until_mark (t : list event) : list event :=
  match t with
  | [] => []
  | ECell _ :: _ => []
  | e :: t' => e :: until_mark t'
  end.

Definition cell_events (n : nat) (t : list event) : list event :=
  until_mark (skip_to n t).

(** The exception an operation of the log raised, if it raised one. *)
Definition outcome_exn {A} (r : outcome A) : option exn :=
  match r with
  | Ret _ => None
  | Raise x => Some x
  end.

Definition event_exn (e : event) : option exn :=
  match e with
  | ECell _ => None
  | ECall _ _ _ _ r => outcome_exn r
  | EGetAttr _ _ r => outcome_exn r
  | ESetAttr _ _ _ r => outcome_exn r
  | ESetItem _ _ _ r => outcome_exn r
  | EUnpack _ r => outcome_exn r
  end.

(** No operation of [l] raised. *)
Definition clean (l : list event) : Prop :=
  Forall (λ e, event_exn e = None) l.

(** A computation lets exceptions through: what it adds to the log is
    clean when it returns, and when it raises, the exception is the one
    of the operation it logged last. *)
Definition faithful {A} (r : outcome A) (new : list event) : Prop :=
  match r with
  | Ret _ => clean new
  | Raise x => ∃ e rest, new = e :: rest ∧ event_exn e = Some x ∧ clean rest
  end.

Definition propagates {A} (m : M A) : Prop :=
  ∀ s, ∃ new, log (m s).2 = (new ++ log s)%list ∧ faithful (m s).1 new.

(** What the calls of a method [m] returned, in order. *)
Definition returned_by (m : string) (t : list event) : list value :=
  omap (λ e,
          match e with
          | ECall _ (CMethod _ m') _ _ (Ret v) =>
              if String.eqb m' m then Some v else None
          | _ => None
          end) t.

(** ** What the notebook relies on in the libraries *)

Definition as_Q (v : value) : option Q :=
  match v with
  | VInt z => Some (inject_Z z)
  | VFloat q => Some q
  | _ => None
  end.

(** Reference behaviour of [numpy.linspace(start, stop, num)] with the
    default [endpoint=True], in exact rational arithmetic: [num] samples
    [start + i * (stop - start) / (num - 1)]. *)
Definition linspace (start stop : Q) (num : Z) : list Q :=
  (λ i : nat, Qred (start + inject_Z (Z.of_nat i) * ((stop - start) / inject_Z (num - 1)))%Q)
    <$> seq 0 (Z.to_nat num).

(** [self.field], for a private field of an object in the store *)
Definition read_field (field : string) (self : value) (h : store)
    : outcome value * store :=
  match self with
  | VRef l =>
      match slot h l field with
      | Some v => (Ret v, h)
      | None => (Raise "AttributeError", h)
      end
  | _ => (Raise "AttributeError", h)
  end.

(** ** The store under the override *)

(** [extends h h']: every object of [h] is in [h'] with its kind and
    its slots; [h'] may hold more. *)
Definition extends (h h' : store) : Prop :=
  ∀ l o, h !! l = Some o →
    ∃ o', h' !! l = Some o' ∧ okind o' = okind o ∧ slots o ⊆ slots o'.

(** A library call never overwrites what is in the store. *)
Definition only_allocates (lib : library) : Prop :=
  ∀ c args kw h, extends h (lib c args kw h).2.

(** The object at [b] is a backend: it keeps its defaults [d] and its
    configuration [c] in private fields, and the configuration has the
    dictionary [hd] as its [hamiltonian]. *)
Record is_backend (h : store) (b d c hd : loc) : Prop := IsBackend {
  bk_defaults : slot h b "_defaults" = Some (VRef d);
  bk_configuration : slot h b "_configuration" = Some (VRef c);
  bk_hamiltonian : slot h c "hamiltonian" = Some (VRef hd);
  bk_defaults_kind : okind <$> h !! d = Some KObject;
  bk_configuration_kind : okind <$> h !! c = Some KObject;
  bk_hamiltonian_kind : okind <$> h !! hd = Some KDict
}.

(** What the notebook relies on: [FakeArmonk()] builds a backend, and
    [defaults()] and [configuration()] return the objects the backend
    keeps, whatever else is in the store. *)
Record backend_contract (lib : library) : Prop := BackendContract {
  lib_allocates : only_allocates lib;
  FakeArmonk_builds : ∀ h v h',
    lib (CCall (VLib q_FakeArmonk)) [] [] h = (Ret v, h') →
    ∃ b d c hd, v = VRef b ∧ is_backend h' b d c hd;
  defaults_reads : ∀ b h,
    lib (CMethod b "defaults") [] [] h = read_field "_defaults" b h;
  configuration_reads : ∀ b h,
    lib (CMethod b "configuration") [] [] h = read_field "_configuration" b h
}.

(** The five fields In [5] assigns. *)
Definition overridden_fields (d c hd : loc) : list (loc * string) :=
  [(d, "qubit_freq_est"); (hd, "h_str"); (hd, "vars"); (hd, "qub"); (c, "dt")].

(** The store holds the overridden values. *)
Record configured (h : store) (d c hd : loc) (wq0 : value) : Prop := Configured {
  cf_qubit_freq_est : slot h d "qubit_freq_est" = Some (VList [freq_est]);
  cf_h_str :
    slot h hd "h_str"
    = Some (VList [VStr "wq0*0.5*(I0-Z0)"; VStr "omegad0*X0||D0"]);
  cf_vars :
    slot h hd "vars" = Some (VDict [("wq0", wq0); ("omegad0", drive_est)]);
  cf_qub : slot h hd "qub" = Some (VDict [("0", VInt 2)]);
  cf_dt : slot h c "dt" = Some dt_value
}.

(** The attribute and item assignments of a trace. *)
Definition writes (t : list event) : list event :=
  List.filter (λ e, match e with
                    | ESetAttr _ _ _ _ | ESetItem _ _ _ _ => true
                    | _ => false
                    end) t.

(** The calls of the library function [q] in a trace. *)
Definition calls_of (q : string) (t : list event) : list event :=
  List.filter (λ e, match e with
                    | ECall _ (CCall (VLib q')) _ _ _ => String.eqb q' q
                    | _ => false
                    end) t.

(** The store holds a backend with the overridden values. *)
Definition overridden_backend (h : store) (b d c hd : loc) (wq0 : value)
    : Prop :=
  is_backend h b d c hd ∧ configured h d c hd wq0.

(** Consecutive values of [l] differ by [step]. *)
Fixpoint evenly_spaced (step : Q) (l : list Q) : bool :=
  match l with
  | x :: (y :: _) as l' => Qeq_bool (y - x) step && evenly_spaced step l'
  | _ => true
  end.

(** What the notebook relies on: [np.linspace] on numbers returns the
    samples of the reference behaviour. *)
Definition linspace_contract (lib : library) : Prop :=
  ∀ (a b : value) (qa qb : Q) (n : Z) (h : store),
    as_Q a = Some qa → as_Q b = Some qb → (2 ≤ n)%Z →
    (lib (CMethod (VLib "numpy") "linspace") [a; b; VInt n] [] h).1
    = Ret (VList (VFloat <$> linspace qa qb n)).

(** ** A sample library

    A small stand-in for Qiskit and NumPy, used to run the notebook on a
    concrete store.  Objects are allocated at fresh locations; the
    backend keeps its configuration and its defaults in private fields
    and hands out the same objects on every call. *)

Module Mock.

Definition fresh_loc (h : store) : loc := fresh (dom h).

Definition alloc (k : kind) (fields : list (string * value)) (h : store)
    : loc * store :=
  (fresh_loc h, <[fresh_loc h := Obj k (list_to_map fields)]> h).

Definition new (k : kind) (fields : list (string * value)) (h : store)
    : outcome value * store :=
  let '(l, h') := alloc k fields h in (Ret (VRef l), h').

Definition FakeArmonk (h : store) : outcome value * store :=
  let '(ham, h) :=
    alloc KDict
      [("description", VStr "Qubits are modelled as a two level system.");
       ("h_str", VList [VStr "wq0*0.5*(I0-Z0)"; VStr "omegad0*X0||D0"]);
       ("osc", VDict []);
       ("qub", VDict [("0", VInt 2)]);
       ("vars", VDict [("omegad0", VFloat (63455017 # 1));
                       ("wq0", VFloat (31252584982 # 1))])] h in
  let '(conf, h) :=
    alloc KObject
      [("backend_name", VStr "fake_armonk");
       ("n_qubits", VInt 1);
       ("hamiltonian", VRef ham);
       ("dt", VFloat (2 # 9000000000));
       ("meas_map", VList [VList [VInt 0]])] h in
  let '(imap, h) := alloc KObject [] h in
  let '(defs, h) :=
    alloc KObject
      [("qubit_freq_est", VList [VFloat (4974 # 1)]);
       ("meas_freq_est", VList [VFloat (6993 # 1)]);
       ("instruction_schedule_map", VRef imap)] h in
  new KObject [("_configuration", VRef conf); ("_defaults", VRef defs)] h.

Definition rabi_schedules (kw : kwargs) (h : store) : outcome value * store :=
  match kw with
  | ("amp_list", VList amps) :: _ =>
      (Ret (VTuple [VList ((λ a, VTuple [VStr "rabi"; a]) <$> amps);
                    VList amps]), h)
  | _ => (Raise "TypeError", h)
  end.

Definition function (q : string) (args : list value) (kw : kwargs)
    (h : store) : outcome value * store :=
  if String.eqb q q_FakeArmonk then FakeArmonk h
  else if String.eqb q q_DriveChannel then new KObject [("index", VList args)] h
  else if String.eqb q q_rabi_schedules then rabi_schedules kw h
  else if String.eqb q q_PulseSimulator then new KObject [] h
  else if String.eqb q q_assemble then
    new KObject [("experiments", VList args); ("config", VDict kw)] h
  else if String.eqb q q_RabiFitter then new KObject [("data", VList args)] h
  else (Raise "TypeError", h).

Definition run (args : list value) (h : store) : outcome value * store :=
  let '(res, h) := alloc KObject [("success", VInt 1)] h in
  new KObject [("_result", VRef res); ("qobj", VList args)] h.

Definition method (self : value) (m : string) (args : list value)
    (h : store) : outcome value * store :=
  if String.eqb m "defaults" then read_field "_defaults" self h
  else if String.eqb m "configuration" then read_field "_configuration" self h
  else if String.eqb m "from_backend" then new KObject [("backend", VList args)] h
  else if String.eqb m "linspace" then
    match args with
    | [a; b; VInt n] =>
        match as_Q a, as_Q b with
        | Some qa, Some qb => (Ret (VList (VFloat <$> linspace qa qb n)), h)
        | _, _ => (Raise "TypeError", h)
        end
    | _ => (Raise "TypeError", h)
    end
  else if String.eqb m "run" then run args h
  else if String.eqb m "result" then read_field "_result" self h
  else if String.eqb m "pi_amplitude" then (Ret (VFloat (348467 # 1000000)), h)
  else if String.eqb m "plot" then (Ret VNone, h)
  else (Raise "AttributeError", h).

Definition operator (op : binop) (args : list value) (h : store)
    : outcome value * store :=
  match op, args with
  | Mul, [a; b] =>
      match as_Q a, as_Q b with
      | Some qa, Some qb => (Ret (VFloat (Qred (qa * qb))), h)
      | _, _ => (Raise "TypeError", h)
      end
  | Mod, [VStr _; _] => (Ret (VStr "Pi Amp: 0.348467"), h)
  | _, _ => (Raise "TypeError", h)
  end.

Definition lib : library := λ c args kw h,
  match c with
  | CImport _ => (Ret VNone, h)
  | CCall (VLib q) => function q args kw h
  | CCall _ => (Raise "TypeError", h)
  | CMethod self m => method self m args h
  | CGetAttr (VLib q) a =>
      if String.eqb q "numpy" && String.eqb a "pi"
      then (Ret (VFloat (3141592653589793 # 1000000000000000)), h)
      else (Raise "AttributeError", h)
  | CGetAttr _ _ => (Raise "AttributeError", h)
  | CBinOp op => operator op args h
  | CBuiltin _ => (Ret VNone, h)
  | CMagic _ => (Ret VNone, h)
  end.

(** The same library with a simulator whose [run] fails. *)
Definition failing_run : library := λ c args kw h,
  match c with
  | CMethod _ m =>
      if String.eqb m "run" then (Raise "AerError", h) else lib c args kw h
  | _ => lib c args kw h
  end.

End Mock.

(** The variables after a run with the sample library on the empty
    store. *)
Definition mock_ns : namespace :=
  Eval vm_compute in
    match (notebook Mock.lib (init ∅)).1 with
    | Ret ns => ns
    | Raise _ =>
        Namespace VNone VNone VNone VNone VNone VNone VNone VNone VNone
    end.

(** The store once the sample backend is built: the backend is at 5, its
    defaults at 4, its configuration at 2, the Hamiltonian at 1. *)
Definition mock_store : store :=
  Eval vm_compute in (Mock.FakeArmonk ∅).2.

(** ** The shape of a run *)

(** An operation of the log with the stores and the values erased: what
    is left is the kind of operation and the names in it. *)
Inductive shape : Type :=
| SCell (n : nat)
| SImport (module : string)
| SCall (f : option string) (nargs : nat) (kws : list string)
| SMethod (m : string) (nargs : nat) (kws : list string)
| SClassAttr (a : string)
| SBinOp (op : binop)
| SBuiltin (name : string) (nargs : nat)
| SMagic (name : string)
| SGetAttr (a : string)
| SSetAttr (a : string)
| SSetItem (k : string)
| SUnpack.

#[global] Instance binop_eq_dec : EqDecision binop.
Proof. solve_decision. Defined.

#[global] Instance shape_eq_dec : EqDecision shape.
Proof. solve_decision. Defined.

Definition shape_of (e : event) : shape :=
  match e with
  | ECell n => SCell n
  | ECall _ c args kw _ =>
      match c with
      | CImport m => SImport m
      | CCall (VLib q) => SCall (Some q) (length args) kw.*1
      | CCall _ => SCall None (length args) kw.*1
      | CMethod _ m => SMethod m (length args) kw.*1
      | CGetAttr _ a => SClassAttr a
      | CBinOp op => SBinOp op
      | CBuiltin name => SBuiltin name (length args)
      | CMagic name => SMagic name
      end
  | EGetAttr _ a _ => SGetAttr a
  | ESetAttr _ a _ _ => SSetAttr a
  | ESetItem _ k _ _ => SSetItem k
  | EUnpack _ _ => SUnpack
  end.

(** The shapes of a run of the notebook, from the empty log. *)
Definition run_shapes (lib : library) (h0 : store) : list shape :=
  shape_of <$> trace (notebook lib (init h0)).2.

(** The statements of the code cells In [1] to In [11], operation by
    operation. *)
Definition script : list shape :=
  [SCell 1;
   SImport "numpy";
   SCell 2;
   SImport "qiskit.ignis.characterization.calibrations";
   SImport "qiskit.pulse";
   SImport "qiskit.compiler";
   SImport "qiskit.qobj.utils";
   SCell 3;
   SImport "qiskit.providers.aer";
   SImport "qiskit.providers.aer.pulse";
   SImport "qiskit.test.mock.backends.armonk.fake_armonk";
   SCell 4;
   SCall (Some q_FakeArmonk) 0 [];
   SCell 5;
   SMethod "defaults" 0 []; SSetAttr "qubit_freq_est";
   SMethod "configuration" 0 []; SGetAttr "hamiltonian"; SSetItem "h_str";
   SGetAttr "pi"; SBinOp Mul; SBinOp Mul;
   SMethod "configuration" 0 []; SGetAttr "hamiltonian"; SSetItem "vars";
   SMethod "configuration" 0 []; SGetAttr "hamiltonian"; SSetItem "qub";
   SMethod "configuration" 0 []; SSetAttr "dt";
   SCell 6;
   SMethod "from_backend" 1 [];
   SCell 7;
   SMethod "linspace" 3 [];
   SCall (Some q_DriveChannel) 1 [];
   SMethod "defaults" 0 []; SGetAttr "instruction_schedule_map";
   SMethod "configuration" 0 []; SGetAttr "meas_map";
   SCall (Some q_rabi_schedules) 0
     ["amp_list"; "qubits"; "pulse_width"; "pulse_sigma"; "drives";
      "inst_map"; "meas_map"];
   SUnpack;
   SCell 8;
   SCall (Some q_PulseSimulator) 0 [];
   SCall (Some q_assemble) 1 ["backend"; "meas_level"; "meas_return"; "shots"];
   SCell 9;
   SMethod "run" 2 []; SMethod "result" 0 [];
   SCell 10;
   SCall (Some q_RabiFitter) 3 ["fit_p0"];
   SMethod "pi_amplitude" 1 []; SMethod "plot" 1 [];
   SBinOp Mod; SBuiltin "print" 1;
   SCell 11;
   SImport "qiskit.tools.jupyter";
   SMagic "qiskit_version_table"; SMagic "qiskit_copyright"].

(** A run checked against the script: all of it when the run returns,
    an initial segment, up to the operation that raised, when it
    raises. *)
Definition follows_script {A} (r : outcome A) (sh : list shape) : bool :=
  match r with
  | Ret _ => bool_decide (sh = script)
  | Raise _ => bool_decide (sh `prefix_of` script) && bool_decide (sh ≠ [])
  end.

(** The initial segments of a list, the empty one left out. *)
Definition prefixes {A} (l : list A) : list (list A) :=
  (λ n, take n l) <$> seq 1 (length l).

(** The step a shape belongs to: [step_of] on shapes. *)
Definition shape_step (x : shape) : option step :=
  match x with
  | SCall (Some q) _ _ =>
      if String.eqb q q_FakeArmonk then Some Instantiate
      else if String.eqb q q_rabi_schedules then Some GenSchedules
      else if String.eqb q q_assemble then Some Assemble
      else if String.eqb q q_RabiFitter then Some Fit
      else None
  | SMethod m _ _ =>
      if String.eqb m "from_backend" then Some BuildModel
      else if String.eqb m "run" then Some Run
      else if String.eqb m "plot" then Some Fit
      else None
  | SSetAttr _ | SSetItem _ => Some Override
  | _ => None
  end.

(** The attribute or item an operation assigns. *)
Definition assigned_name (x : shape) : option string :=
  match x with
  | SSetAttr a => Some a
  | SSetItem k => Some k
  | _ => None
  end.

Definition assigned (sh : list shape) : list string := omap assigned_name sh.

Definition imported_module (x : shape) : option string :=
  match x with
  | SImport m => Some m
  | _ => None
  end.

Definition imported (sh : list shape) : list string := omap imported_module sh.

Definition is_magic (x : shape) : bool :=
  match x with
  | SMagic _ => true
  | _ => false
  end.

(** The operations of each cell: the shapes are cut at the cell
    markers; what comes before the first marker is the first component. *)
Fixpoint cut_cells (sh : list shape) : list shape * list (nat * list shape) :=
  match sh with
  | [] => ([], [])
  | SCell n :: sh' =>
      let '(cur, rest) := cut_cells sh' in ([], (n, cur) :: rest)
  | x :: sh' =>
      let '(cur, rest) := cut_cells sh' in (x :: cur, rest)
  end.

Definition by_cell (sh : list shape) : list (nat * list shape) :=
  (cut_cells sh).2.

(** The modules In [1] to In [3] import. *)
Definition imports_of_notebook : list string :=
  ["numpy";
   "qiskit.ignis.characterization.calibrations";
   "qiskit.pulse";
   "qiskit.compiler";
   "qiskit.qobj.utils";
   "qiskit.providers.aer";
   "qiskit.providers.aer.pulse";
   "qiskit.test.mock.backends.armonk.fake_armonk"].

(** Calling a list raises [TypeError]. *)
Definition lists_not_callable (lib : library) : Prop :=
  ∀ vs args kw h, (lib (CCall (VList vs)) args kw h).1 = Raise "TypeError".

(** [framed h0 F h]: every slot of [h0] outside [F] holds in [h] what it
    holds in [h0]. *)
Definition framed (h0 : store) (F : list (loc * string)) (h : store) : Prop :=
  ∀ l f v, (l, f) ∉ F → slot h0 l f = Some v → slot h l f = Some v.

(** The schedules the sample library returned. *)
Definition mock_schedules : list value :=
  Eval vm_compute in
    match ns_rabi_schedules mock_ns with
    | VList vs => vs
    | _ => []
    end.

(** A computation only adds to the store. *)
Definition grows {A} (m : M A) : Prop :=
  ∀ s, extends (heap s) (heap (m s).2).

(** The sample library with the calls selected by [bad] raising [x]. *)
Definition mock_failing (bad : callee → bool) (x : exn) : library :=
  λ c args kw h, if bad c then (Raise x, h) else Mock.lib c args kw h.

Definition is_run (c : callee) : bool :=
  match c with
  | CMethod _ m => String.eqb m "run"
  | _ => false
  end.

Definition is_class_attr (c : callee) : bool :=
  match c with
  | CGetAttr _ _ => true
  | _ => false
  end.

(** ** Running a computation to completion *)

Lemma bind_ret_inv {A B} (m : M A) (k : A → M B) s b s' :
  bind m k s = (Ret b, s') →
  ∃ a s1, m s = (Ret a, s1) ∧ k a s1 = (Ret b, s').
Proof.
  unfold bind. destruct (m s) as [[a|e] s1]; [eauto | discriminate].
Qed.

Lemma prim_ret_inv {A} (f : store → outcome A * store) ev h l a s' :
  prim f ev (State h l) = (Ret a, s') →
  ∃ h', f h = (Ret a, h') ∧ s' = State h' (ev h (Ret a) :: l).
Proof.
  unfold prim. cbn [heap log]. destruct (f h) as [r h'].
  intros [= -> <-]. eauto.
Qed.

Lemma mark_ret_inv n h l u s' :
  mark n (State h l) = (Ret u, s') → s' = State h (ECell n :: l).
Proof. by intros [= _ <-]. Qed.

Lemma ret_ret_inv {A} (a b : A) s s' :
  ret a s = (Ret b, s') → b = a ∧ s' = s.
Proof. by intros [= <- <-]. Qed.

Lemma unpack_pair_inv v h a b h' :
  unpack_pair v h = (Ret (a, b), h') →
  v = VTuple [a; b] ∨ v = VList [a; b].
Proof.
  destruct v as [| | | |vs|vs| | |]; try discriminate;
    destruct vs as [|x [|y [|z vs]]]; try discriminate;
    intros [= -> -> _]; auto.
Qed.

Lemma unpack_pair_store v h r h' : unpack_pair v h = (r, h') → h' = h.
Proof.
  destruct v as [| | | |vs|vs| | |]; try (by intros [= _ <-]);
    destruct vs as [|x [|y [|z vs]]]; by intros [= _ <-].
Qed.

Ltac unfold_monad H := unfold mbind, M_bind, mret, M_ret in H.

Ltac inv_run H :=
  lazymatch type of H with
  | bind ?m ?k ?s = (Ret ?b, ?s') =>
      let a := fresh "v" in
      let s1 := fresh "s" in
      let H1 := fresh "Hm" in
      let H2 := fresh "Hk" in
      destruct (bind_ret_inv m k s b s' H) as (a & s1 & H1 & H2);
      clear H; inv_run H1; cbv beta in H2; inv_run H2
  | prim ?f ?ev (State ?h0 ?l) = (Ret ?a, ?s') =>
      let h := fresh "h" in
      let E := fresh "E" in
      destruct (prim_ret_inv f ev h0 l a s' H) as (h & E & ->);
      clear H
  | mark ?n (State ?h0 ?l) = (Ret ?u, ?s') =>
      apply mark_ret_inv in H as ->
  | ret ?a ?s = (Ret ?b, ?s') =>
      apply ret_ret_inv in H as [-> ->]
  | (let '(_, _) := ?p in _) _ = _ =>
      destruct p; inv_run H
  | ?c _ = (Ret _, _) =>
      first
        [ progress
            unfold notebook, cell_1, cell_2, cell_3, cell_4, cell_5, cell_6,
              cell_7, cell_8, cell_9, cell_10, cell_11, import, binary,
              unpack2, call, getattr, setattr, setitem, init, set_defaults_attr,
              set_hamiltonian_item, set_configuration_attr in H;
          unfold_monad H; inv_run H
        | idtac ]
  | _ => idtac
  end.

Lemma mock_returns : returns Mock.lib ∅ mock_ns.
Proof. vm_compute. reflexivity. Qed.

Ltac start_run H :=
  lazymatch type of H with
  | returns ?lib ?h0 ?ns =>
      let s := fresh "s" in
      let r := fresh "r" in
      unfold returns in H;
      destruct (notebook lib (init h0)) as [r s] eqn:Hrun;
      cbn [fst snd] in *; subst r; inv_run Hrun;
      repeat match goal with u : () |- _ => destruct u end
  end.

(** ** The flow *)



(** ** The calls, one by one *)



(** C5: the cell In [8] constructs a [PulseSimulator] and calls
    [assemble] on the schedules of In [7], with the simulator as
    [backend], [meas_level = 1], [meas_return = 'avg'] and
    [shots = 512]; what [assemble] returns is named [rabi_qobj] and is
    the first argument of the simulator's [run] in In [9]. *)
Theorem assembly lib h0 ns :
  returns lib h0 ns →
  let t := trace (notebook lib (init h0)).2 in
  ∃ h1 h2 h3 job rest,
    cell_events 8 t =
      [ECall h1 (CCall (VLib q_PulseSimulator)) [] [] (Ret (ns_backend_sim ns));
       ECall h2 (CCall (VLib q_assemble)) [ns_rabi_schedules ns]
         [("backend", ns_backend_sim ns);
          ("meas_level", VInt 1);
          ("meas_return", VStr "avg");
          ("shots", VInt 512)]
         (Ret (ns_rabi_qobj ns))]
    ∧ cell_events 9 t =
        ECall h3 (CMethod (ns_backend_sim ns) "run")
          [ns_rabi_qobj ns; ns_armonk_model ns] [] (Ret job) :: rest.
Proof.
  intros H t. subst t. start_run H.
  do 5 eexists. split; reflexivity.
Qed.

Lemma assembly_witness :
  returns Mock.lib ∅ mock_ns ∧
  length (cell_events 8 (trace (notebook Mock.lib (init ∅)).2)) = 2%nat.
Proof.
  split; [vm_compute; reflexivity|].
  destruct (assembly Mock.lib ∅ mock_ns)
    as (h1 & h2 & h3 & job & rest & -> & _).
  { vm_compute. reflexivity. }
  reflexivity.
Defined.

(** C6: the cell In [10] constructs [RabiFitter] from the simulation
    result, [xdata], the qubit list [[0]] and [fit_p0 = [1.5, 2, 0, 0]],
    then calls [pi_amplitude(0)] and [plot(0)] on the fitter, and prints
    the amplitude. *)
Theorem fitting lib h0 ns :
  returns lib h0 ns →
  let t := trace (notebook lib (init h0)).2 in
  ∃ h1 h2 h3 fig h4 msg h5 out,
    cell_events 10 t =
      [ECall h1 (CCall (VLib q_RabiFitter))
         [ns_sim_result ns; ns_xdata ns; VList [VInt 0]]
         [("fit_p0", VList [VFloat (15 # 10); VInt 2; VInt 0; VInt 0])]
         (Ret (ns_rabi_fit ns));
       ECall h2 (CMethod (ns_rabi_fit ns) "pi_amplitude") [VInt 0] []
         (Ret (ns_pi_amp ns));
       ECall h3 (CMethod (ns_rabi_fit ns) "plot") [VInt 0] [] (Ret fig);
       ECall h4 (CBinOp Mod) [VStr "Pi Amp: %f"; ns_pi_amp ns] [] (Ret msg);
       ECall h5 (CBuiltin "print") [msg] [] (Ret out)].
Proof.
  intros H t. subst t. start_run H.
  do 8 eexists. reflexivity.
Qed.

Lemma fitting_witness :
  returns Mock.lib ∅ mock_ns ∧
  length (cell_events 10 (trace (notebook Mock.lib (init ∅)).2)) = 5%nat.
Proof.
  split; [vm_compute; reflexivity|].
  destruct (fitting Mock.lib ∅ mock_ns)
    as (h1 & h2 & h3 & fig & h4 & msg & h5 & out & ->).
  { vm_compute. reflexivity. }
  reflexivity.
Defined.

(** C3, as the code has it: [run] returns a job handle, and the cell
    In [9] consists of the call of [run] on the assembled job object and
    the model, followed by one call of [result()] on the handle; it is
    what [result()] returns that is named [sim_result]. *)
Theorem run_then_result lib h0 ns :
  returns lib h0 ns →
  let t := trace (notebook lib (init h0)).2 in
  ∃ h1 job h2,
    cell_events 9 t =
      [ECall h1 (CMethod (ns_backend_sim ns) "run")
         [ns_rabi_qobj ns; ns_armonk_model ns] [] (Ret job);
       ECall h2 (CMethod job "result") [] [] (Ret (ns_sim_result ns))]
    ∧ returned_by "run" t = [job]
    ∧ returned_by "result" t = [ns_sim_result ns].
Proof.
  intros H t. subst t. start_run H.
  do 3 eexists. repeat split; reflexivity.
Qed.

Lemma run_then_result_witness :
  returns Mock.lib ∅ mock_ns ∧
  length (cell_events 9 (trace (notebook Mock.lib (init ∅)).2)) = 2%nat.
Proof.
  split; [vm_compute; reflexivity|].
  destruct (run_then_result Mock.lib ∅ mock_ns) as (h1 & job & h2 & -> & _).
  { vm_compute. reflexivity. }
  reflexivity.
Defined.

(** C3, as the claim has it: [sim_result] is what [run] returned.  With
    the sample library [run] returns the job, not its result. *)
Lemma run_result_counterexample :
  ¬ (∀ lib h0 ns,
       returns lib h0 ns →
       returned_by "run" (trace (notebook lib (init h0)).2)
       = [ns_sim_result ns]).
Proof.
  intros H. specialize (H Mock.lib ∅ mock_ns).
  assert (Hr : returns Mock.lib ∅ mock_ns) by (vm_compute; reflexivity).
  specialize (H Hr). vm_compute in H. discriminate H.
Qed.

(** ** Exceptions *)

Lemma propagates_ret {A} (a : A) : propagates (ret a).
Proof. intros s. exists []. split; [reflexivity | constructor]. Qed.

Lemma propagates_mark n : propagates (mark n).
Proof.
  intros s. exists [ECell n]. split; [reflexivity|].
  repeat constructor.
Qed.

Lemma propagates_prim {A} (f : store → outcome A * store) ev :
  (∀ h r, event_exn (ev h r) = outcome_exn r) →
  propagates (prim f ev).
Proof.
  intros Hev s. unfold prim. destruct (f (heap s)) as [r h'] eqn:E.
  exists [ev (heap s) r]. split; [reflexivity|].
  destruct r as [a|x]; cbn.
  - constructor; [by rewrite Hev | constructor].
  - exists (ev (heap s) (Raise x)), []. rewrite Hev. repeat split. constructor.
Qed.

Lemma propagates_bind {A B} (m : M A) (k : A → M B) :
  propagates m → (∀ a, propagates (k a)) → propagates (bind m k).
Proof.
  intros Hm Hk s. unfold bind.
  destruct (Hm s) as (new1 & Hlog1 & Hf1).
  destruct (m s) as [[a|x] s1]; cbn [fst snd] in *.
  - destruct (Hk a s1) as (new2 & Hlog2 & Hf2).
    exists (new2 ++ new1)%list. split.
    + rewrite Hlog2, Hlog1. by rewrite app_assoc.
    + unfold faithful, clean in *.
      destruct ((k a s1).1) as [b|y].
      * by apply Forall_app.
      * destruct Hf2 as (e & rest & -> & He & Hrest).
        exists e, (rest ++ new1)%list. repeat split; [done|].
        by apply Forall_app.
  - exists new1. by split.
Qed.

Ltac propagate :=
  repeat first
    [ apply propagates_ret
    | apply propagates_mark
    | apply propagates_prim; intros; reflexivity
    | apply propagates_bind; [|intros ?]
    | match goal with
      | |- propagates (let '(_, _) := ?p in _) => destruct p
      end ].

Lemma propagates_notebook lib : propagates (notebook lib).
Proof.
  unfold notebook, cell_1, cell_2, cell_3, cell_4, cell_5, cell_6, cell_7,
    cell_8, cell_9, cell_10, cell_11, import, binary, unpack2, call,
    getattr, setattr, setitem, set_defaults_attr, set_hamiltonian_item,
    set_configuration_attr.
  unfold mbind, M_bind, mret, M_ret.
  propagate.
Qed.

(** C7: the notebook handles no exception and raises none of its own.
    In a run that returns, no operation raised.  In a run that raises,
    the exception is the one of the last operation performed (a library
    call, or an attribute, item or unpacking operation of the
    interpreter): nothing runs after it, and every operation before it
    returned. *)
Theorem exceptions_propagate lib h0 :
  let r := (notebook lib (init h0)).1 in
  let t := trace (notebook lib (init h0)).2 in
  match r with
  | Ret _ => clean t
  | Raise x => ∃ pre e, t = (pre ++ [e])%list ∧ event_exn e = Some x ∧ clean pre
  end.
Proof.
  intros r t. subst r t.
  destruct (propagates_notebook lib (init h0)) as (new & Hlog & Hf).
  unfold trace. rewrite Hlog. cbn [init log]. rewrite app_nil_r.
  unfold faithful, clean in *.
  destruct ((notebook lib (init h0)).1) as [ns|x].
  - by apply Forall_rev.
  - destruct Hf as (e & rest & -> & He & Hrest).
    exists (rev rest), e. repeat split; [done|]. by apply Forall_rev.
Qed.

(** When the simulator's [run] raises, the notebook stops in In [9]
    with that exception: In [10] and In [11] are not run. *)
Lemma failing_run_stops :
  (notebook Mock.failing_run (init ∅)).1 = Raise "AerError"
  ∧ steps_by_cell (trace (notebook Mock.failing_run (init ∅)).2) =
      [(1%nat, []); (2%nat, []); (3%nat, []);
       (4%nat, [Instantiate]);
       (5%nat, [Override; Override; Override; Override; Override]);
       (6%nat, [BuildModel]);
       (7%nat, [GenSchedules]);
       (8%nat, [Assemble]);
       (9%nat, [Run])].
Proof. split; vm_compute; reflexivity. Qed.



Lemma extends_refl h : extends h h.
Proof. intros l o Hl. by exists o. Qed.

Lemma extends_trans h1 h2 h3 : extends h1 h2 → extends h2 h3 → extends h1 h3.
Proof.
  intros H12 H23 l o Hl.
  destruct (H12 l o Hl) as (o2 & Hl2 & Hk2 & Hs2).
  destruct (H23 l o2 Hl2) as (o3 & Hl3 & Hk3 & Hs3).
  exists o3. repeat split; [done | congruence | by etrans].
Qed.

Lemma extends_slot h h' l f v :
  extends h h' → slot h l f = Some v → slot h' l f = Some v.
Proof.
  unfold slot. intros He Hs.
  destruct (h !! l) as [o|] eqn:Hl; [|done].
  destruct (He l o Hl) as (o' & -> & _ & Hsub).
  by eapply lookup_weaken.
Qed.

Lemma extends_kind h h' l k :
  extends h h' → okind <$> h !! l = Some k → okind <$> h' !! l = Some k.
Proof.
  intros He Hk.
  destruct (h !! l) as [o|] eqn:Hl; [|done].
  destruct (He l o Hl) as (o' & -> & Hk' & _).
  cbn in *. congruence.
Qed.

Lemma slot_write_eq h l f v k :
  okind <$> h !! l = Some k → slot (write_slot h l f v) l f = Some v.
Proof.
  unfold slot, write_slot. destruct (h !! l) as [o|]; [|done]. intros _.
  rewrite lookup_insert_eq. cbn. by rewrite lookup_insert_eq.
Qed.

Lemma slot_write_ne h l f v l' f' :
  (l, f) ≠ (l', f') → slot (write_slot h l f v) l' f' = slot h l' f'.
Proof.
  unfold slot, write_slot. intros Hne.
  destruct (h !! l) as [o|] eqn:Hl; [|done].
  destruct (decide (l = l')) as [<-|Hll].
  - rewrite lookup_insert_eq, Hl. cbn.
    rewrite lookup_insert_ne; [done | congruence].
  - by rewrite lookup_insert_ne.
Qed.

Lemma kind_write h l f v l' :
  okind <$> write_slot h l f v !! l' = okind <$> h !! l'.
Proof.
  unfold write_slot. destruct (h !! l) as [o|] eqn:Hl; [|done].
  destruct (decide (l = l')) as [<-|Hll].
  - by rewrite lookup_insert_eq, Hl.
  - by rewrite lookup_insert_ne.
Qed.

Lemma is_backend_extends h h' b d c hd :
  extends h h' → is_backend h b d c hd → is_backend h' b d c hd.
Proof.
  intros He [H1 H2 H3 H4 H5 H6].
  split; eauto using extends_slot, extends_kind.
Qed.

(** Assigning a field that is none of the three the backend is held
    together by leaves it a backend. *)
Lemma is_backend_write h b d c hd l f v :
  f ≠ "_defaults" → f ≠ "_configuration" → f ≠ "hamiltonian" →
  is_backend h b d c hd → is_backend (write_slot h l f v) b d c hd.
Proof.
  intros N1 N2 N3 [H1 H2 H3 H4 H5 H6].
  split; rewrite ?kind_write, ?slot_write_ne; try done; congruence.
Qed.

Section Override.
Variable lib : library.
Hypothesis contract : backend_contract lib.

Lemma load_attr_extends o a h r h' :
  load_attr lib o a h = (r, h') → extends h h'.
Proof.
  pose proof (lib_allocates lib contract (CGetAttr o a) [] [] h) as Hl.
  unfold load_attr. intros E.
  repeat case_match; simplify_eq; try apply extends_refl;
    by rewrite E in Hl.
Qed.

Lemma load_attr_slot l a h v :
  slot h l a = Some v → okind <$> h !! l = Some KObject →
  load_attr lib (VRef l) a h = (Ret v, h).
Proof. unfold load_attr. by intros -> ->. Qed.

Lemma set_defaults_attr_run h l b d c hd a v :
  is_backend h b d c hd →
  set_defaults_attr lib (VRef b) a v (State h l)
  = (Ret tt,
     State (write_slot h d a v)
       (ESetAttr (VRef d) a v (Ret tt)
        :: ECall h (CMethod (VRef b) "defaults") [] [] (Ret (VRef d)) :: l)).
Proof.
  intros [H1 H2 H3 H4 H5 H6].
  unfold set_defaults_attr, mbind, M_bind, bind, call, setattr, prim.
  cbn [heap log]. rewrite (defaults_reads lib contract).
  unfold read_field. rewrite H1. cbn [heap log].
  unfold store_attr. by rewrite H4.
Qed.

Lemma set_hamiltonian_item_run h l b d c hd k v :
  is_backend h b d c hd →
  set_hamiltonian_item lib (VRef b) k v (State h l)
  = (Ret tt,
     State (write_slot h hd k v)
       (ESetItem (VRef hd) k v (Ret tt)
        :: EGetAttr (VRef c) "hamiltonian" (Ret (VRef hd))
        :: ECall h (CMethod (VRef b) "configuration") [] [] (Ret (VRef c))
        :: l)).
Proof.
  intros [H1 H2 H3 H4 H5 H6].
  unfold set_hamiltonian_item, mbind, M_bind, bind, call, getattr, setitem,
    prim.
  cbn [heap log]. rewrite (configuration_reads lib contract).
  unfold read_field. rewrite H2. cbn [heap log].
  rewrite (load_attr_slot _ _ _ _ H3 H5). cbn [heap log].
  unfold store_item. by rewrite H6.
Qed.

Lemma set_configuration_attr_run h l b d c hd a v :
  is_backend h b d c hd →
  set_configuration_attr lib (VRef b) a v (State h l)
  = (Ret tt,
     State (write_slot h c a v)
       (ESetAttr (VRef c) a v (Ret tt)
        :: ECall h (CMethod (VRef b) "configuration") [] [] (Ret (VRef c))
        :: l)).
Proof.
  intros [H1 H2 H3 H4 H5 H6].
  unfold set_configuration_attr, mbind, M_bind, bind, call, setattr, prim.
  cbn [heap log]. rewrite (configuration_reads lib contract).
  unfold read_field. rewrite H2. cbn [heap log].
  unfold store_attr. by rewrite H5.
Qed.

End Override.

Lemma lib_call_extends lib c args kw h r h' :
  backend_contract lib → lib c args kw h = (r, h') → extends h h'.
Proof.
  intros C E. pose proof (lib_allocates lib C c args kw h) as Hl.
  by rewrite E in Hl.
Qed.

(** What In [5] does to a store that holds a backend. *)
Lemma cell_5_run lib np b d c hd h0 l0 s :
  backend_contract lib →
  is_backend h0 b d c hd →
  cell_5 lib np (VRef b) (State h0 l0) = (Ret tt, s) →
  ∃ h1 pi h2 two_pi h3 wq0,
    let st1 := write_slot h0 d "qubit_freq_est" (VList [freq_est]) in
    let st2 :=
      write_slot st1 hd "h_str"
        (VList [VStr "wq0*0.5*(I0-Z0)"; VStr "omegad0*X0||D0"]) in
    let st3 :=
      write_slot h3 hd "vars" (VDict [("wq0", wq0); ("omegad0", drive_est)]) in
    let st4 := write_slot st3 hd "qub" (VDict [("0", VInt 2)]) in
    extends st2 h3
    ∧ s = State (write_slot st4 c "dt" dt_value)
          ([ESetAttr (VRef c) "dt" dt_value (Ret tt);
           ECall st4 (CMethod (VRef b) "configuration") [] [] (Ret (VRef c));
           ESetItem (VRef hd) "qub" (VDict [("0", VInt 2)]) (Ret tt);
           EGetAttr (VRef c) "hamiltonian" (Ret (VRef hd));
           ECall st3 (CMethod (VRef b) "configuration") [] [] (Ret (VRef c));
           ESetItem (VRef hd) "vars"
             (VDict [("wq0", wq0); ("omegad0", drive_est)]) (Ret tt);
           EGetAttr (VRef c) "hamiltonian" (Ret (VRef hd));
           ECall h3 (CMethod (VRef b) "configuration") [] [] (Ret (VRef c));
           ECall h2 (CBinOp Mul) [two_pi; freq_est] [] (Ret wq0);
           ECall h1 (CBinOp Mul) [VInt 2; pi] [] (Ret two_pi);
           EGetAttr np "pi" (Ret pi);
           ESetItem (VRef hd) "h_str"
             (VList [VStr "wq0*0.5*(I0-Z0)"; VStr "omegad0*X0||D0"]) (Ret tt);
           EGetAttr (VRef c) "hamiltonian" (Ret (VRef hd));
           ECall st1 (CMethod (VRef b) "configuration") [] [] (Ret (VRef c));
           ESetAttr (VRef d) "qubit_freq_est" (VList [freq_est]) (Ret tt);
           ECall h0 (CMethod (VRef b) "defaults") [] [] (Ret (VRef d));
           ECell 5] ++ l0)%list.
Proof.
  intros C B0 E. unfold cell_5 in E. unfold_monad E.
  apply bind_ret_inv in E as (u & s1 & E0 & E).
  apply mark_ret_inv in E0 as ->.
  apply bind_ret_inv in E as (u1 & s1 & E0 & E).
  rewrite (set_defaults_attr_run lib C _ _ _ _ _ _ _ _ B0) in E0.
  injection E0 as <- <-.
  assert (B1 := is_backend_write _ _ _ _ _ d "qubit_freq_est"
                  (VList [freq_est]) ltac:(done) ltac:(done) ltac:(done) B0).
  apply bind_ret_inv in E as (u2 & s2 & E0 & E).
  rewrite (set_hamiltonian_item_run lib C _ _ _ _ _ _ _ _ B1) in E0.
  injection E0 as <- <-.
  assert (B2 := is_backend_write _ _ _ _ _ hd "h_str"
                  (VList [VStr "wq0*0.5*(I0-Z0)"; VStr "omegad0*X0||D0"])
                  ltac:(done) ltac:(done) ltac:(done) B1).
  apply bind_ret_inv in E as (pi & s3 & E0 & E).
  unfold getattr in E0. apply prim_ret_inv in E0 as (h1 & E1 & ->).
  apply load_attr_extends in E1 as X1; [|done].
  apply bind_ret_inv in E as (two_pi & s4 & E0 & E).
  unfold binary, call in E0. apply prim_ret_inv in E0 as (h2 & E2 & ->).
  apply lib_call_extends in E2 as X2; [|done].
  apply bind_ret_inv in E as (wq0 & s5 & E0 & E).
  unfold binary, call in E0. apply prim_ret_inv in E0 as (h3 & E3 & ->).
  apply lib_call_extends in E3 as X3; [|done].
  assert (X : extends
                (write_slot (write_slot h0 d "qubit_freq_est" (VList [freq_est]))
                   hd "h_str"
                   (VList [VStr "wq0*0.5*(I0-Z0)"; VStr "omegad0*X0||D0"])) h3)
    by eauto using extends_trans.
  assert (B3 := is_backend_extends _ _ _ _ _ _ X B2).
  apply bind_ret_inv in E as (u3 & s6 & E0 & E).
  rewrite (set_hamiltonian_item_run lib C _ _ _ _ _ _ _ _ B3) in E0.
  injection E0 as <- <-.
  assert (B4 := is_backend_write _ _ _ _ _ hd "vars"
                  (VDict [("wq0", wq0); ("omegad0", drive_est)])
                  ltac:(done) ltac:(done) ltac:(done) B3).
  apply bind_ret_inv in E as (u4 & s7 & E0 & E).
  rewrite (set_hamiltonian_item_run lib C _ _ _ _ _ _ _ _ B4) in E0.
  injection E0 as <- <-.
  assert (B5 := is_backend_write _ _ _ _ _ hd "qub" (VDict [("0", VInt 2)])
                  ltac:(done) ltac:(done) ltac:(done) B4).
  rewrite (set_configuration_attr_run lib C _ _ _ _ _ _ _ _ B5) in E.
  injection E as <-.
  exists h1, pi, h2, two_pi, h3, wq0. cbn zeta. split; [done|reflexivity].
Qed.

(** Where the five assignments leave the store. *)
Lemma override_store h0 h3 b d c hd wq0 :
  is_backend h0 b d c hd →
  let st1 := write_slot h0 d "qubit_freq_est" (VList [freq_est]) in
  let st2 :=
    write_slot st1 hd "h_str"
      (VList [VStr "wq0*0.5*(I0-Z0)"; VStr "omegad0*X0||D0"]) in
  let st3 :=
    write_slot h3 hd "vars" (VDict [("wq0", wq0); ("omegad0", drive_est)]) in
  let st4 := write_slot st3 hd "qub" (VDict [("0", VInt 2)]) in
  let st5 := write_slot st4 c "dt" dt_value in
  extends st2 h3 →
  configured st5 d c hd wq0
  ∧ is_backend st5 b d c hd
  ∧ (∀ l f v, (l, f) ∉ overridden_fields d c hd →
       slot h0 l f = Some v → slot st5 l f = Some v).
Proof.
  intros B0 st1 st2 st3 st4 st5 X.
  assert (B1 : is_backend st1 b d c hd) by by apply is_backend_write.
  assert (B2 : is_backend st2 b d c hd) by by apply is_backend_write.
  assert (B3 : is_backend h3 b d c hd) by by eapply is_backend_extends.
  assert (B4 : is_backend st3 b d c hd) by by apply is_backend_write.
  assert (B5 : is_backend st4 b d c hd) by by apply is_backend_write.
  assert (B6 : is_backend st5 b d c hd) by by apply is_backend_write.
  split; [|split; [done|]].
  - split; subst st5 st4 st3.
    + rewrite !slot_write_ne by congruence.
      eapply extends_slot; [done|]. subst st2.
      rewrite slot_write_ne by congruence.
      eapply slot_write_eq, (bk_defaults_kind _ _ _ _ _ B0).
    + rewrite !slot_write_ne by congruence.
      eapply extends_slot; [done|].
      eapply slot_write_eq, (bk_hamiltonian_kind _ _ _ _ _ B1).
    + rewrite slot_write_ne by congruence.
      rewrite slot_write_ne by congruence.
      eapply slot_write_eq, (bk_hamiltonian_kind _ _ _ _ _ B3).
    + rewrite slot_write_ne by congruence.
      eapply slot_write_eq, (bk_hamiltonian_kind _ _ _ _ _ B4).
    + eapply slot_write_eq, (bk_configuration_kind _ _ _ _ _ B5).
  - intros l f v Hnot Hs. unfold overridden_fields in Hnot.
    rewrite !not_elem_of_cons in Hnot.
    destruct Hnot as (N1 & N2 & N3 & N4 & N5 & _).
    subst st5 st4 st3. rewrite !slot_write_ne by congruence.
    eapply extends_slot; [done|]. subst st2 st1.
    by rewrite !slot_write_ne by congruence.
Qed.


(** ** The sample library meets the contract *)

Lemma alloc_extends k fields h : extends h (Mock.alloc k fields h).2.
Proof.
  unfold Mock.alloc, Mock.fresh_loc. cbn. intros l o Hl. exists o.
  split; [|done]. rewrite lookup_insert_ne; [done|].
  intros <-. apply (is_fresh (dom h)). apply elem_of_dom. eauto.
Qed.

Lemma alloc_slot k fields h f :
  slot (Mock.alloc k fields h).2 (Mock.alloc k fields h).1 f
  = (list_to_map fields : gmap string value) !! f.
Proof. unfold Mock.alloc, slot. cbn. by rewrite lookup_insert_eq. Qed.

Lemma alloc_kind k fields h :
  okind <$> (Mock.alloc k fields h).2 !! (Mock.alloc k fields h).1 = Some k.
Proof. unfold Mock.alloc. cbn. by rewrite lookup_insert_eq. Qed.

Lemma new_extends k fields h : extends h (Mock.new k fields h).2.
Proof. apply alloc_extends. Qed.

Lemma read_field_store field self h : (read_field field self h).2 = h.
Proof. unfold read_field. by repeat case_match. Qed.

Lemma mock_FakeArmonk_extends h : extends h (Mock.FakeArmonk h).2.
Proof.
  unfold Mock.FakeArmonk.
  repeat (match goal with
          | |- context [Mock.alloc ?k ?fs ?h'] =>
              let X := fresh "X" in
              pose proof (alloc_extends k fs h') as X;
              destruct (Mock.alloc k fs h') as [? ?]; cbn [snd] in X
          end).
  eapply extends_trans; [done|]. eapply extends_trans; [done|].
  eapply extends_trans; [done|]. eapply extends_trans; [done|].
  apply new_extends.
Qed.

Lemma mock_allocates : only_allocates Mock.lib.
Proof.
  intros c args kw h. unfold Mock.lib.
  destruct c as [m|f|self m|self a|op|name|name]; cbv beta iota.
  - apply extends_refl.
  - destruct f; try apply extends_refl. unfold Mock.function.
    repeat case_match; try apply extends_refl; try apply new_extends.
    + apply mock_FakeArmonk_extends.
    + unfold Mock.rabi_schedules.
      repeat case_match; apply extends_refl.
  - unfold Mock.method, Mock.run.
    repeat case_match; simplify_eq;
      rewrite ?read_field_store;
      try apply extends_refl; try apply new_extends.
    eapply extends_trans; [|apply new_extends].
    match goal with
    | H : Mock.alloc ?k ?fs ?h' = _ |- _ =>
        pose proof (alloc_extends k fs h') as X; by rewrite H in X
    end.
  - repeat case_match; apply extends_refl.
  - unfold Mock.operator. repeat case_match; apply extends_refl.
  - apply extends_refl.
  - apply extends_refl.
Qed.

Lemma mock_FakeArmonk_builds h v h' :
  Mock.FakeArmonk h = (Ret v, h') →
  ∃ b d c hd, v = VRef b ∧ is_backend h' b d c hd.
Proof.
  unfold Mock.FakeArmonk, Mock.new.
  set (fs1 := (_ :: _ :: _ :: _ :: _ :: [] : list (string * value))).
  pose proof (alloc_slot KDict fs1 h) as S1.
  pose proof (alloc_kind KDict fs1 h) as K1.
  destruct (Mock.alloc KDict fs1 h) as [hd h1]. cbn [fst snd] in *.
  match goal with
  | |- context [Mock.alloc KObject ?fs h1] =>
      pose proof (alloc_slot KObject fs h1) as S2;
      pose proof (alloc_kind KObject fs h1) as K2;
      pose proof (alloc_extends KObject fs h1) as X2;
      destruct (Mock.alloc KObject fs h1) as [c h2]
  end.
  cbn [fst snd] in *.
  match goal with
  | |- context [Mock.alloc KObject ?fs h2] =>
      pose proof (alloc_extends KObject fs h2) as X3;
      destruct (Mock.alloc KObject fs h2) as [imap h3]
  end.
  cbn [fst snd] in *.
  match goal with
  | |- context [Mock.alloc KObject ?fs h3] =>
      pose proof (alloc_kind KObject fs h3) as K4;
      pose proof (alloc_extends KObject fs h3) as X4;
      destruct (Mock.alloc KObject fs h3) as [d h4]
  end.
  cbn [fst snd] in *.
  match goal with
  | |- context [Mock.alloc KObject ?fs h4] =>
      pose proof (alloc_slot KObject fs h4) as S5;
      pose proof (alloc_extends KObject fs h4) as X5;
      destruct (Mock.alloc KObject fs h4) as [b h5]
  end.
  cbn [fst snd] in *. intros [= <- <-].
  exists b, d, c, hd. split; [done|].
  split.
  - by rewrite S5.
  - by rewrite S5.
  - eapply extends_slot; [|by rewrite S2].
    eauto using extends_trans.
  - eauto using extends_kind.
  - eapply extends_kind; [|exact K2]. eauto using extends_trans.
  - eapply extends_kind; [|exact K1]. eauto using extends_trans.
Qed.

Lemma mock_contract : backend_contract Mock.lib.
Proof.
  split.
  - apply mock_allocates.
  - intros h v h'. cbn. unfold Mock.function.
    change (String.eqb q_FakeArmonk q_FakeArmonk) with true. cbn.
    apply mock_FakeArmonk_builds.
  - reflexivity.
  - reflexivity.
Qed.


(** ** One configuration throughout *)

(** The calls of the library function [q] in a trace. *)
Lemma configured_extends h h' d c hd wq0 :
  extends h h' → configured h d c hd wq0 → configured h' d c hd wq0.
Proof. intros X [H1 H2 H3 H4 H5]. split; eauto using extends_slot. Qed.

Lemma overridden_backend_extends h h' b d c hd wq0 :
  extends h h' →
  overridden_backend h b d c hd wq0 → overridden_backend h' b d c hd wq0.
Proof.
  intros X [B Cf]. split;
    eauto using is_backend_extends, configured_extends.
Qed.

Ltac inv_bind H H1 :=
  let a := fresh "v" in
  let s1 := fresh "s" in
  apply bind_ret_inv in H as (a & s1 & H1 & H).

(** Carry the invariant along every operation that follows In [5]. *)
Ltac push_invariant C :=
  repeat match goal with
  | E : unpack_pair _ ?h = (_, ?h') |- _ =>
      apply unpack_pair_store in E as ?; subst h'
  | E : ?lib _ _ _ ?h = (_, ?h'), I : overridden_backend ?h _ _ _ _ _ |- _ =>
      lazymatch goal with
      | _ : overridden_backend h' _ _ _ _ _ |- _ => fail
      | _ =>
          let I' := fresh "I" in
          assert (I' := overridden_backend_extends _ _ _ _ _ _ _
                          (lib_call_extends _ _ _ _ _ _ _ C E) I)
      end
  | E : load_attr ?lib _ _ ?h = (_, ?h'),
    I : overridden_backend ?h _ _ _ _ _ |- _ =>
      lazymatch goal with
      | _ : overridden_backend h' _ _ _ _ _ |- _ => fail
      | _ =>
          let I' := fresh "I" in
          assert (I' := overridden_backend_extends _ _ _ _ _ _ _
                          (load_attr_extends _ C _ _ _ _ _ E) I)
      end
  end.



(** ** The amplitude sweep *)

(** Consecutive values of [l] differ by [step]. *)
Lemma mock_linspace : linspace_contract Mock.lib.
Proof.
  intros a b qa qb n h Ha Hb _. cbn. unfold Mock.method. cbn.
  by rewrite Ha, Hb.
Qed.



(** ** Every run, returning or not *)

Lemma bind_inv {A B} (m : M A) (k : A → M B) s r s' :
  bind m k s = (r, s') →
  (∃ a s1, m s = (Ret a, s1) ∧ k a s1 = (r, s'))
  ∨ (∃ e, m s = (Raise e, s') ∧ r = Raise e).
Proof.
  unfold bind. destruct (m s) as [[a|e] s1]; [eauto|].
  intros [= <- <-]. eauto.
Qed.

Lemma prim_inv {A} (f : store → outcome A * store) ev h l r s' :
  prim f ev (State h l) = (r, s') →
  ∃ h', f h = (r, h') ∧ s' = State h' (ev h r :: l).
Proof.
  unfold prim. cbn [heap log]. destruct (f h) as [r0 h'].
  intros [= -> <-]. eauto.
Qed.

(** Invert a run whatever its outcome: one goal for each operation at
    which it may have stopped, and one for the run that returns. *)
Ltac inv_any H :=
  lazymatch type of H with
  | bind ?m ?k ?s = (?r, ?s') =>
      let a := fresh "v" in
      let s1 := fresh "s" in
      let e := fresh "x" in
      let H1 := fresh "Hm" in
      let H2 := fresh "Hk" in
      let Hr := fresh "Hr" in
      destruct (bind_inv m k s r s' H)
        as [(a & s1 & H1 & H2) | (e & H1 & Hr)];
      clear H;
      [ inv_run H1; cbv beta in H2; inv_any H2
      | first [ subst r | injection Hr as -> ]; inv_any H1 ]
  | prim ?f ?ev (State ?h0 ?l) = (?r, ?s') =>
      let h := fresh "h" in
      let E := fresh "E" in
      destruct (prim_inv f ev h0 l r s' H) as (h & E & ->);
      clear H
  | mark ?n (State ?h0 ?l) = (Raise _, _) => discriminate H
  | ret ?a ?s = (Raise _, _) => discriminate H
  | mark ?n (State ?h0 ?l) = (?r, ?s') =>
      injection H as <- <-
  | ret ?a ?s = (?r, ?s') =>
      injection H as <- <-
  | (let '(_, _) := ?p in _) _ = _ =>
      destruct p; inv_any H
  | ?c _ = (_, _) =>
      first
        [ progress
            unfold notebook, cell_1, cell_2, cell_3, cell_4, cell_5, cell_6,
              cell_7, cell_8, cell_9, cell_10, cell_11, import, binary,
              unpack2, call, getattr, setattr, setitem, init, set_defaults_attr,
              set_hamiltonian_item, set_configuration_attr in H;
          unfold_monad H; inv_any H
        | idtac ]
  | _ => idtac
  end.

Lemma notebook_follows_script lib h0 :
  follows_script (notebook lib (init h0)).1 (run_shapes lib h0) = true.
Proof.
  unfold run_shapes.
  destruct (notebook lib (init h0)) as [r s] eqn:H. cbn [fst snd].
  inv_any H; vm_compute; reflexivity.
Qed.

Lemma run_shapes_prefix lib h0 :
  run_shapes lib h0 `prefix_of` script ∧ run_shapes lib h0 ≠ [].
Proof.
  pose proof (notebook_follows_script lib h0) as H.
  unfold follows_script in H.
  destruct ((notebook lib (init h0)).1) as [ns|x].
  - apply bool_decide_eq_true in H. by rewrite H.
  - apply andb_true_iff in H as [H1 H2].
    by apply bool_decide_eq_true in H1, H2.
Qed.

Lemma prefix_in_prefixes {A} (l k : list A) :
  l `prefix_of` k → l ≠ [] → l ∈ prefixes k.
Proof.
  intros [k' ->] Hne. unfold prefixes. apply list_elem_of_fmap.
  exists (length l). split.
  - by rewrite take_app_length.
  - apply elem_of_seq. rewrite length_app.
    destruct l; [done|]. cbn. lia.
Qed.

(** What holds of every initial segment of the script holds of every
    run. *)
Lemma on_every_prefix (P : list shape → Prop) :
  Forall P (prefixes script) → ∀ lib h0, P (run_shapes lib h0).
Proof.
  intros HP lib h0. rewrite Forall_forall in HP. apply HP.
  destruct (run_shapes_prefix lib h0). by apply prefix_in_prefixes.
Qed.

Lemma step_of_shape e : step_of e = shape_step (shape_of e).
Proof.
  destruct e as [n|pre c args kw r| | | |]; try reflexivity.
  destruct c as [m|f|self m|self a|op|name|name]; try reflexivity.
  by destruct f.
Qed.

Lemma steps_shapes t : steps t = collapse (omap shape_step (shape_of <$> t)).
Proof.
  unfold steps. f_equal.
  induction t as [|e t IH]; [done|]. cbn.
  rewrite step_of_shape, IH. done.
Qed.

(** X1: whatever the library returns, the operations of a run are the
    statements of the cells in source order: their shapes are an initial
    segment of the script, and all of it when the run returns. *)
Theorem straight_line lib h0 :
  run_shapes lib h0 `prefix_of` script
  ∧ (∀ ns, returns lib h0 ns → run_shapes lib h0 = script).
Proof.
  split; [apply run_shapes_prefix|].
  intros ns Hret. pose proof (notebook_follows_script lib h0) as H.
  unfold returns in Hret. rewrite Hret in H.
  by apply bool_decide_eq_true in H.
Qed.

Lemma straight_line_witness :
  returns Mock.lib ∅ mock_ns ∧ run_shapes Mock.lib ∅ = script.
Proof.
  split; [vm_compute; reflexivity|].
  apply (straight_line Mock.lib ∅) with mock_ns. vm_compute. reflexivity.
Defined.

(** X2: in every run, returning or not, the steps taken are an initial
    segment of the seven steps. *)
Theorem steps_in_order lib h0 :
  steps (trace (notebook lib (init h0)).2)
  `prefix_of`
  [Instantiate; Override; BuildModel; GenSchedules; Assemble; Run; Fit].
Proof.
  rewrite steps_shapes.
  apply (on_every_prefix
           (λ sh, collapse (omap shape_step sh)
                  `prefix_of`
                  [Instantiate; Override; BuildModel; GenSchedules; Assemble;
                   Run; Fit])).
  compute_done.
Qed.

(** X3: in every run, the names assigned are, in order, an initial
    segment of the five of In [5], and no other cell assigns an
    attribute or an item. *)
Theorem assignments_confined lib h0 :
  assigned (run_shapes lib h0)
  `prefix_of` ["qubit_freq_est"; "h_str"; "vars"; "qub"; "dt"]
  ∧ Forall (λ c, c.1 ≠ 5%nat → assigned c.2 = [])
      (by_cell (run_shapes lib h0)).
Proof.
  apply (on_every_prefix
           (λ sh, assigned sh
                  `prefix_of` ["qubit_freq_est"; "h_str"; "vars"; "qub"; "dt"]
                  ∧ Forall (λ c, c.1 ≠ 5%nat → assigned c.2 = [])
                      (by_cell sh))).
  compute_done.
Qed.

(** X4: in every run the cells are started in the order of their
    execution counts, from In [1] on, none skipped and none twice, and
    nothing is done outside a cell. *)
Theorem cells_in_order lib h0 :
  (by_cell (run_shapes lib h0)).*1 `prefix_of` seq 1 11
  ∧ head (run_shapes lib h0) = Some (SCell 1).
Proof.
  apply (on_every_prefix
           (λ sh, (by_cell sh).*1 `prefix_of` seq 1 11
                  ∧ head sh = Some (SCell 1))).
  compute_done.
Qed.

(** X5: in every run, In [1] to In [3] do nothing but import, and no
    later cell is started before the eight modules have been imported,
    in the order of the source. *)
Theorem imports_first lib h0 :
  Forall (λ c, (c.1 ≤ 3)%nat → Forall (λ x, is_Some (imported_module x)) c.2)
    (by_cell (run_shapes lib h0))
  ∧ Forall (λ c, (4 ≤ c.1)%nat →
              imports_of_notebook `prefix_of` imported (run_shapes lib h0))
      (by_cell (run_shapes lib h0)).
Proof.
  apply (on_every_prefix
           (λ sh,
              Forall (λ c, (c.1 ≤ 3)%nat →
                         Forall (λ x, is_Some (imported_module x)) c.2)
                (by_cell sh)
              ∧ Forall (λ c, (4 ≤ c.1)%nat →
                          imports_of_notebook `prefix_of` imported sh)
                  (by_cell sh))).
  compute_done.
Qed.

(** X6: in every run, a line magic is run only in In [11], whose first
    operation is the import of [qiskit.tools.jupyter], and only after
    the [print] of In [10]. *)
Theorem magics_last lib h0 :
  Forall (λ c, existsb is_magic c.2 = true →
             c.1 = 11%nat ∧ head c.2 = Some (SImport "qiskit.tools.jupyter"))
    (by_cell (run_shapes lib h0))
  ∧ (existsb is_magic (run_shapes lib h0) = true →
     SBuiltin "print" 1 ∈ run_shapes lib h0).
Proof.
  apply (on_every_prefix
           (λ sh,
              Forall (λ c, existsb is_magic c.2 = true →
                         c.1 = 11%nat
                         ∧ head c.2 = Some (SImport "qiskit.tools.jupyter"))
                (by_cell sh)
              ∧ (existsb is_magic sh = true → SBuiltin "print" 1 ∈ sh))).
  compute_done.
Qed.

(** ** The store over the whole notebook *)

Lemma framed_extends h0 F h h' :
  extends h h' → framed h0 F h → framed h0 F h'.
Proof. intros X Hf l f v Hn Hs. eauto using extends_slot. Qed.

Lemma mock_failing_contract bad x :
  bad (CCall (VLib q_FakeArmonk)) = false →
  (∀ b, bad (CMethod b "defaults") = false) →
  (∀ b, bad (CMethod b "configuration") = false) →
  backend_contract (mock_failing bad x).
Proof.
  intros HF HD HC. split; unfold mock_failing.
  - intros c args kw h. destruct (bad c); [apply extends_refl|].
    apply mock_allocates.
  - intros h v h'. rewrite HF. apply (FakeArmonk_builds _ mock_contract).
  - intros b h. by rewrite HD.
  - intros b h. by rewrite HC.
Qed.

Section Grows.
Variable lib : library.
Hypothesis contract : backend_contract lib.

Lemma grows_ret {A} (a : A) : grows (ret a).
Proof. intros s. apply extends_refl. Qed.

Lemma grows_mark n : grows (mark n).
Proof. intros s. apply extends_refl. Qed.

Lemma grows_call c args kw : grows (call lib c args kw).
Proof.
  intros s. unfold call, prim.
  destruct (lib c args kw (heap s)) as [r h'] eqn:E. cbn.
  by eapply lib_call_extends.
Qed.

Lemma grows_getattr o a : grows (getattr lib o a).
Proof.
  intros s. unfold getattr, prim.
  destruct (load_attr lib o a (heap s)) as [r h'] eqn:E. cbn.
  by eapply load_attr_extends.
Qed.

Lemma grows_unpack2 v : grows (unpack2 v).
Proof.
  intros s. unfold unpack2, prim.
  destruct (unpack_pair v (heap s)) as [r h'] eqn:E. cbn.
  apply unpack_pair_store in E as ->. apply extends_refl.
Qed.

Lemma grows_bind {A B} (m : M A) (k : A → M B) :
  grows m → (∀ a, grows (k a)) → grows (bind m k).
Proof.
  intros Hm Hk s. unfold bind. specialize (Hm s).
  destruct (m s) as [[a|x] s1]; cbn [snd] in *; [|done].
  eapply extends_trans; [done|]. apply Hk.
Qed.

End Grows.

Ltac grow C :=
  unfold cell_6, cell_7, cell_8, cell_9, cell_10, cell_11, import, binary;
  unfold mbind, M_bind, mret, M_ret;
  repeat first
    [ apply grows_ret
    | apply grows_mark
    | apply (grows_call _ C)
    | apply (grows_getattr _ C)
    | apply grows_unpack2
    | apply grows_bind; [|intros ?]
    | match goal with
      | |- grows (let '(_, _) := ?p in _) => destruct p
      end ].

(** A run that stopped before In [6] has no marker of In [6]. *)
Ltac not_past_5 Hin :=
  exfalso;
  apply (bool_decide_pack _) in Hin;
  vm_compute in Hin; exact Hin.

Ltac cell_or_stop Hrun Hin :=
  lazymatch type of Hrun with
  | bind ?m ?k ?s = (?r, ?s') =>
      let a := fresh "v" in
      let s1 := fresh "s" in
      let e := fresh "x" in
      let H1 := fresh "Hm" in
      let H2 := fresh "Hk" in
      let Hr := fresh "Hr" in
      destruct (bind_inv m k s r s' Hrun)
        as [(a & s1 & H1 & H2) | (e & H1 & Hr)];
      clear Hrun;
      [ rename H2 into Hrun
      | subst r; inv_any H1; not_past_5 Hin ]
  end.



(** What In [5] has done when it raises: under the contract only the
    lookup of [np.pi] and the two multiplications can raise, all three
    after the first two assignments and before the third. *)
Lemma cell_5_raise lib np b d c hd h0 l0 e s :
  backend_contract lib →
  is_backend h0 b d c hd →
  cell_5 lib np (VRef b) (State h0 l0) = (Raise e, s) →
  let st1 := write_slot h0 d "qubit_freq_est" (VList [freq_est]) in
  let st2 :=
    write_slot st1 hd "h_str"
      (VList [VStr "wq0*0.5*(I0-Z0)"; VStr "omegad0*X0||D0"]) in
  extends st2 (heap s)
  ∧ ∃ new, log s = (new ++ l0)%list
      ∧ assigned (shape_of <$> rev new) = ["qubit_freq_est"; "h_str"].
Proof.
  intros C B0 E. unfold cell_5 in E. unfold_monad E.
  apply bind_inv in E as [(u & s1 & E0 & E) | (x & E0 & _)];
    [|discriminate E0].
  apply mark_ret_inv in E0 as ->.
  apply bind_inv in E as [(u1 & s1 & E0 & E) | (x & E0 & _)];
    rewrite (set_defaults_attr_run lib C _ _ _ _ _ _ _ _ B0) in E0;
    [|discriminate E0].
  injection E0 as <- <-.
  assert (B1 := is_backend_write _ _ _ _ _ d "qubit_freq_est"
                  (VList [freq_est]) ltac:(done) ltac:(done) ltac:(done) B0).
  apply bind_inv in E as [(u2 & s2 & E0 & E) | (x & E0 & _)];
    rewrite (set_hamiltonian_item_run lib C _ _ _ _ _ _ _ _ B1) in E0;
    [|discriminate E0].
  injection E0 as <- <-.
  assert (B2 := is_backend_write _ _ _ _ _ hd "h_str"
                  (VList [VStr "wq0*0.5*(I0-Z0)"; VStr "omegad0*X0||D0"])
                  ltac:(done) ltac:(done) ltac:(done) B1).
  cbv zeta.
  apply bind_inv in E as [(pi & s3 & E0 & E) | (x & E0 & [= <-])];
    unfold getattr in E0; apply prim_inv in E0 as (h1 & E1 & ->);
    apply load_attr_extends in E1 as X1; try done.
  2: { split; [done|]. by eexists (_ :: _ :: _ :: _ :: _ :: _ :: _ :: [])%list. }
  apply bind_inv in E as [(two_pi & s4 & E0 & E) | (x & E0 & [= <-])];
    unfold binary, call in E0; apply prim_inv in E0 as (h2 & E2 & ->);
    apply lib_call_extends in E2 as X2; try done.
  2: { split; [by eapply extends_trans|].
       by eexists (_ :: _ :: _ :: _ :: _ :: _ :: _ :: _ :: [])%list. }
  apply bind_inv in E as [(wq0 & s5 & E0 & E) | (x & E0 & [= <-])];
    unfold binary, call in E0; apply prim_inv in E0 as (h3 & E3 & ->);
    apply lib_call_extends in E3 as X3; try done.
  2: { split; [eauto using extends_trans|].
       by eexists (_ :: _ :: _ :: _ :: _ :: _ :: _ :: _ :: _ :: [])%list. }
  exfalso.
  assert (X : extends
                (write_slot (write_slot h0 d "qubit_freq_est" (VList [freq_est]))
                   hd "h_str"
                   (VList [VStr "wq0*0.5*(I0-Z0)"; VStr "omegad0*X0||D0"])) h3)
    by eauto using extends_trans.
  assert (B3 := is_backend_extends _ _ _ _ _ _ X B2).
  apply bind_inv in E as [(u3 & s6 & E0 & E) | (x & E0 & _)];
    rewrite (set_hamiltonian_item_run lib C _ _ _ _ _ _ _ _ B3) in E0;
    [|discriminate E0].
  injection E0 as <- <-.
  assert (B4 := is_backend_write _ _ _ _ _ hd "vars"
                  (VDict [("wq0", wq0); ("omegad0", drive_est)])
                  ltac:(done) ltac:(done) ltac:(done) B3).
  apply bind_inv in E as [(u4 & s7 & E0 & E) | (x & E0 & _)];
    rewrite (set_hamiltonian_item_run lib C _ _ _ _ _ _ _ _ B4) in E0;
    [|discriminate E0].
  injection E0 as <- <-.
  assert (B5 := is_backend_write _ _ _ _ _ hd "qub" (VDict [("0", VInt 2)])
                  ltac:(done) ltac:(done) ltac:(done) B4).
  rewrite (set_configuration_attr_run lib C _ _ _ _ _ _ _ _ B5) in E.
  discriminate E.
Qed.





(** ** Running In [7] again *)

(** X9: In [7] rebinds the name [rabi_schedules] to the list of
    schedules.  Run again in the same kernel, with a library in which
    calling a list raises, the cell never returns: no second set of
    schedules is generated. *)
Theorem rabi_schedules_rebound lib np vs DriveChannel backend h :
  lists_not_callable lib →
  ∃ e, (cell_7 lib np (VList vs) DriveChannel backend (init h)).1 = Raise e.
Proof.
  intros L.
  destruct (cell_7 lib np (VList vs) DriveChannel backend (init h))
    as [r s] eqn:H.
  cbn [fst]. inv_any H; try (eexists; reflexivity).
  match goal with
  | E : lib (CCall (VList vs)) ?a ?k ?h' = _ |- _ =>
      pose proof (L vs a k h') as HL; rewrite E in HL; discriminate HL
  end.
Qed.

Lemma rabi_schedules_rebound_witness :
  lists_not_callable Mock.lib
  ∧ ns_rabi_schedules mock_ns = VList mock_schedules
  ∧ ∃ e,
      (cell_7 Mock.lib (VLib "numpy") (VList mock_schedules)
         (VLib q_DriveChannel) (ns_armonk_backend mock_ns)
         (init mock_store)).1 = Raise e.
Proof.
  assert (L : lists_not_callable Mock.lib) by (intros vs args kw h; reflexivity).
  split; [exact L|]. split; [vm_compute; reflexivity|].
  exact (rabi_schedules_rebound Mock.lib (VLib "numpy") mock_schedules
           (VLib q_DriveChannel) (ns_armonk_backend mock_ns) mock_store L).
Defined.
